(** * academic_paper_documentor: the paper-ingestion pipeline

    A shallow embedding of the pipeline of [paper_processor.py] and of the
    modules it drives ([pdf_extractor.py], [llm_analyzer.py],
    [notion_client.py], [config.py]), followed by the properties the
    specification states about it.

    Conventions of the embedding:
    - a Python [str] is the list of its code points ([list N]);
    - a dict is a finite map ([gmap]); a JSON value is the inductive [json];
    - the outside world (HTTP, the PDF library, the language model, the
      JSON decoder, the clock-free parts of the OS) is a record [World] of
      answers; code that talks to it runs in a state-and-exception monad
      whose state holds the file system and the trace of effects;
    - console output ([print]) is not recorded; the evaluation of a printed
      expression that can raise is. *)

From Stdlib Require Import ZArith NArith Strings.String Strings.Ascii.
From Stdlib Require Import Uint63 PrimFloat FloatOps SpecFloat.
From stdpp Require Import base option list gmap pretty.

Set Default Proof Using "Type".
Local Open Scope N_scope.

(** ** Python strings *)

Abbreviation pystr := (list N).

Module Str.

(** An ASCII literal of the source as a list of code points. *)
Definition py (s : String.string) : pystr :=
  (λ a, N_of_ascii a) <$> list_ascii_of_string s.

Definition NL : pystr := [10].        (* the newline *)
Definition ARROW : pystr := [8594].   (* U+2192 *)
Definition EMDASH : pystr := [8212].  (* U+2014 *)
Definition ELLIPSIS : pystr := [8230]. (* U+2026 *)
Definition DQ : pystr := [34].        (* the double quote *)

Definition eqb (s t : pystr) : bool := bool_decide (s = t).

(** [str.isspace] of one code point, which is also the class [\s] of
    [re] on [str] patterns. *)
Definition isspace (c : N) : bool :=
  ((9 <=? c) && (c <=? 13)) || ((28 <=? c) && (c <=? 32))
  || (c =? 133) || (c =? 160) || (c =? 5760)
  || ((8192 <=? c) && (c <=? 8202))
  || (c =? 8232) || (c =? 8233) || (c =? 8239) || (c =? 8287) || (c =? 12288).



(** [str.lower] on the code points below U+0100 (ASCII and Latin-1);
    code points from U+0100 on are left as they are. *)
Definition lower_cp (c : N) : N :=
  if ((65 <=? c) && (c <=? 90))
     || ((192 <=? c) && (c <=? 222) && negb (c =? 215))
  then c + 32 else c.

Definition lower (s : pystr) : pystr := lower_cp <$> s.

Fixpoint dropwhile (p : N → bool) (s : pystr) : pystr :=
  match s with
  | [] => []
  | c :: s' => if p c then dropwhile p s' else s
  end.

Definition lstrip (s : pystr) : pystr := dropwhile isspace s.
Definition rstrip (s : pystr) : pystr := reverse (dropwhile isspace (reverse s)).
Definition strip (s : pystr) : pystr := lstrip (rstrip s).

(** [s.rstrip(chars)] *)
Definition rstrip_chars (chars s : pystr) : pystr :=
  reverse (dropwhile (λ c, bool_decide (c ∈ chars)) (reverse s)).

Fixpoint startswith (s p : pystr) : bool :=
  match p, s with
  | [], _ => true
  | _ :: _, [] => false
  | a :: p', b :: s' => (a =? b) && startswith s' p'
  end.

Definition endswith (s p : pystr) : bool := startswith (reverse s) (reverse p).

(** [needle in hay] *)
Fixpoint contains (hay needle : pystr) : bool :=
  startswith hay needle
  || match hay with
     | [] => false
     | _ :: hay' => contains hay' needle
     end.

(** [s.replace(old, new)]: every occurrence, left to right, without
    overlap. [skip] counts the characters of a matched [old] that remain
    to be passed over. *)
Fixpoint replace_go (old new : pystr) (skip : nat) (s : pystr) : pystr :=
  match s with
  | [] => []
  | c :: s' =>
      match skip with
      | S k => replace_go old new k s'
      | O => if startswith s old
             then new ++ replace_go old new (length old - 1) s'
             else c :: replace_go old new O s'
      end
  end.

Definition replace (s old new : pystr) : pystr :=
  match old with
  | [] => new ++ concat ((λ c, c :: new) <$> s)
  | _ :: _ => replace_go old new O s
  end.

(** [s.split(sep)] for a non-empty [sep]; [cur] is the piece being read,
    reversed. *)
Fixpoint split_go (sep : pystr) (skip : nat) (cur s : pystr) : list pystr :=
  match s with
  | [] => [reverse cur]
  | c :: s' =>
      match skip with
      | S k => split_go sep k cur s'
      | O => if startswith s sep
             then reverse cur :: split_go sep (length sep - 1) [] s'
             else split_go sep O (c :: cur) s'
      end
  end.

Definition split (s sep : pystr) : list pystr := split_go sep O [] s.

(** [sep.join(parts)] *)
Fixpoint join (sep : pystr) (parts : list pystr) : pystr :=
  match parts with
  | [] => []
  | [p] => p
  | p :: rest => p ++ sep ++ join sep rest
  end.

(** [s[-n:]] for [n >= 0]: the last [n] characters, and the whole string
    when [n] is zero. *)
Definition last_n (n : nat) (s : pystr) : pystr :=
  match n with
  | O => s
  | S _ => drop (length s - n) s
  end.

(** [str(n)] of a non-negative integer. *)
Definition of_N (n : N) : pystr := py (pretty n).
Definition of_nat (n : nat) : pystr := of_N (N.of_nat n).

(** Truth value of a string. *)
Definition nonempty (s : pystr) : bool :=
  match s with [] => false | _ :: _ => true end.

End Str.

(** ** Regular expressions

    The fragment of [re] the sources use, with the backtracking order of
    [re]: alternatives left to right, greedy repetition longest first, lazy
    repetition shortest first, and a repetition that stops when an iteration
    consumes nothing. *)

Module Re.

Inductive regex :=
| Eps
| Chr (p : N → bool)
| Seq (r1 r2 : regex)
| Alt (r1 r2 : regex)
| Star (greedy : bool) (r : regex)
| Group (r : regex)            (* the capturing group 1 *)
| Bol                          (* ^ *)
| Eol                          (* $ *)
| EndZ                         (* \Z *)
| Look (r : regex).            (* (?=...) *)

Record mstate := MState {
  m_pos : nat;                  (* characters consumed so far *)
  m_rest : pystr;               (* what is left of the subject *)
  m_grp : option (nat * nat)    (* span of group 1 *)
}.

Definition or_else {A} (x y : option A) : option A :=
  match x with Some a => Some a | None => y end.

Fixpoint rmatch {A} (r : regex) (st : mstate) (k : mstate → option A)
    {struct r} : option A :=
  match r with
  | Eps => k st
  | Chr p =>
      match m_rest st with
      | c :: rest =>
          if p c then k (MState (S (m_pos st)) rest (m_grp st)) else None
      | [] => None
      end
  | Seq r1 r2 => rmatch r1 st (λ st1, rmatch r2 st1 k)
  | Alt r1 r2 => or_else (rmatch r1 st k) (rmatch r2 st k)
  | Star g r1 =>
      (fix loop (fuel : nat) (st : mstate) {struct fuel} : option A :=
         match fuel with
         | O => k st
         | S fuel' =>
             let again :=
               rmatch r1 st
                 (λ st1, if (m_pos st <? m_pos st1)%nat then loop fuel' st1 else None) in
             if g then or_else again (k st) else or_else (k st) again
         end) (S (length (m_rest st))) st
  | Group r1 =>
      rmatch r1 st
        (λ st1, k (MState (m_pos st1) (m_rest st1) (Some (m_pos st, m_pos st1))))
  | Bol => if (m_pos st =? 0)%nat then k st else None
  | Eol => match m_rest st with
           | [] => k st
           | [10] => k st
           | _ => None
           end
  | EndZ => match m_rest st with [] => k st | _ => None end
  | Look r1 =>
      match rmatch r1 st (λ st1, Some st1) with
      | Some _ => k st
      | None => None
      end
  end.

(** Derived forms. *)
Definition Lit (s : pystr) : regex := foldr (λ c r, Seq (Chr (N.eqb c)) r) Eps s.
Definition Opt (r : regex) : regex := Alt r Eps.            (* r? *)
Definition Plus (r : regex) : regex := Seq r (Star true r). (* r+ *)
Fixpoint Rep (n : nat) (r : regex) : regex :=               (* r{n} *)
  match n with O => Eps | S n' => Seq r (Rep n' r) end.
Definition space : regex := Chr Str.isspace.                (* \s *)
Definition any : regex := Chr (λ _, true).                  (* . with DOTALL *)

(** A literal under the flag [(?i)]: a letter matches in either case,
    and [s], [k], [i] also match the code points whose case folding they
    are (U+017F; U+212A; U+0130 and U+0131). *)
Definition ci_char (c x : N) : bool :=
  let l := Str.lower_cp c in
  (Str.lower_cp x =? l)
  || ((l =? 115) && (x =? 383))
  || ((l =? 107) && (x =? 8490))
  || ((l =? 105) && ((x =? 304) || (x =? 305))).

Definition LitI (s : pystr) : regex := foldr (λ c r, Seq (Chr (ci_char c)) r) Eps s.

(** The match of [r] that starts where [st] stands. *)
Definition match_here (r : regex) (st : mstate) : option mstate :=
  rmatch r st Some.


(** [re.search(r, s)]: the first position from which [r] matches. *)
Fixpoint search_from (r : regex) (pos : nat) (s : pystr) : option mstate :=
  match match_here r (MState pos s None) with
  | Some st => Some st
  | None => match s with
            | [] => None
            | _ :: s' => search_from r (S pos) s'
            end
  end.

Definition re_search (r : regex) (s : pystr) : option mstate := search_from r 0 s.

(** [m.group(1)] in the subject [s]; [None] when the group took no part. *)
Definition group1 (s : pystr) (m : mstate) : option pystr :=
  match m_grp m with
  | Some (b, e) => Some (take (e - b) (drop b s))
  | None => None
  end.

(** [re.sub(r, repl, s)] for a replacement without group references. *)
Fixpoint sub_go (r : regex) (repl : pystr) (fuel pos : nat) (s : pystr) : pystr :=
  match fuel with
  | O => s
  | S fuel' =>
      let step := match s with
                  | [] => []
                  | c :: s' => c :: sub_go r repl fuel' (S pos) s'
                  end in
      match match_here r (MState pos s None) with
      | Some st =>
          if (pos <? m_pos st)%nat
          then repl ++ sub_go r repl fuel' (m_pos st) (m_rest st)
          else repl ++ step
      | None => step
      end
  end.

Definition re_sub (r : regex) (repl s : pystr) : pystr :=
  sub_go r repl (S (length s)) 0 s.

End Re.

(** ** Values, exceptions and effects *)

Set Warnings "-register-all".

(** JSON values, which are also the Python values the pipeline handles:
    [JNull] is [None], [JObj] a dict, [JList] a list. *)
Inductive json :=
| JNull
| JBool (b : bool)
| JInt (z : Z)
| JStr (s : pystr)
| JList (l : list json)
| JObj (m : gmap pystr json).

(** Truth value of a Python object. *)
Definition truthy (v : json) : bool :=
  match v with
  | JNull => false
  | JBool b => b
  | JInt z => negb (z =? 0)%Z
  | JStr s => Str.nonempty s
  | JList l => match l with [] => false | _ => true end
  | JObj m => negb (bool_decide (m = ∅))
  end.

(** Exception classes. [HTTPError], [ConnectionError], [Timeout],
    [RequestsJSONDecodeError] and [OtherRequestException] derive from
    [requests.RequestException]; every class here derives from
    [Exception]. [RuntimeError] stands for the class and its subclasses.
    Asynchronous interrupts are outside the model. *)
Inductive exc_class :=
| FileNotFoundError
| RuntimeError
| HTTPError
| ConnectionError
| Timeout
| RequestsJSONDecodeError
| OtherRequestException
| JSONDecodeError
| ValueError
| AttributeError
| KeyError
| IndexError
| TypeError
| OSError
| OtherException.

#[global] Instance exc_class_eq_dec : EqDecision exc_class.
Proof. solve_decision. Defined.

(** An exception: its class and [str(exc)]. *)
Record exn := Exn { exc_class_of : exc_class; exc_str : pystr }.

#[global] Instance exn_eq_dec : EqDecision exn.
Proof. solve_decision. Defined.

Definition is_RequestException (e : exn) : bool :=
  match exc_class_of e with
  | HTTPError | ConnectionError | Timeout
  | RequestsJSONDecodeError | OtherRequestException => true
  | _ => false
  end.

Definition is_RuntimeError (e : exn) : bool :=
  bool_decide (exc_class_of e = RuntimeError).

Definition is_FileNotFoundError (e : exn) : bool :=
  bool_decide (exc_class_of e = FileNotFoundError).

(** The result of running a piece of code: a value or a raised exception. *)
Inductive result (A : Type) :=
| Ret (a : A)
| Raise (e : exn).
Arguments Ret {A} a.
Arguments Raise {A} e.

Inductive log_level := DEBUG | INFO | WARNING | ERROR.

#[global] Instance log_level_eq_dec : EqDecision log_level.
Proof. solve_decision. Defined.

(** The effects a run leaves behind, oldest first. A log event is the call
    of the logger: level, format string, and the arguments as strings. *)
Inductive event :=
| EvLog (lvl : log_level) (fmt : pystr) (args : list pystr)
| EvGet (url : pystr)                       (* requests.get(url, ...) *)
| EvSleep (seconds : N)                     (* time.sleep *)
| EvTempFile (path : pystr)                 (* NamedTemporaryFile(delete=False) *)
| EvUnlink (path : pystr)                   (* os.unlink *)
| EvOpenPdf (path : pystr)                  (* fitz.open *)
| EvCatalogQuery (title_contains : pystr)   (* POST databases/<id>/query *)
| EvGenerate (prompt : pystr)               (* model.generate_content *)
| EvCreatePage (payload : json).            (* POST pages *)

(** The state code runs in: the regular files that exist, the trace, and
    how many temp files have been made (which names the next one). *)
Record state := State {
  files : gset pystr;
  trace : list event;
  temps : nat
}.

(** The monad of state [S] and exceptions. *)
Definition M (S A : Type) : Type := S → result A * S.

Definition ret {S A} (a : A) : M S A := λ s, (Ret a, s).
Definition raise {S A} (e : exn) : M S A := λ s, (Raise e, s).
Definition bind {S A B} (m : M S A) (f : A → M S B) : M S B :=
  λ s, match m s with
       | (Ret a, s') => f a s'
       | (Raise e, s') => (Raise e, s')
       end.

Notation "'let*' x := m 'in' k" := (bind m (λ x, k))
  (at level 10, x name, m at level 100, k at level 200).
Notation "'do*' m 'in' k" := (bind m (λ _, k))
  (at level 10, m at level 100, k at level 200).

(** [try: body except <catches> as exc: handler exc] *)
Definition try_except {S A} (body : M S A) (catches : exn → bool)
    (handler : exn → M S A) : M S A :=
  λ s, match body s with
       | (Ret a, s') => (Ret a, s')
       | (Raise e, s') => if catches e then handler e s' else (Raise e, s')
       end.

(** [try: body finally: final]: [final] runs on every way out of [body];
    what [body] produced stands unless [final] itself raises. *)
Definition try_finally {S A} (body : M S A) (final : M S unit) : M S A :=
  λ s, match body s with
       | (r, s') => match final s' with
                    | (Ret _, s'') => (r, s'')
                    | (Raise e, s'') => (Raise e, s'')
                    end
       end.

Definition emit (ev : event) : M state unit :=
  λ s, (Ret tt, State (files s) (trace s ++ [ev]) (temps s)).

Definition log (lvl : log_level) (fmt : pystr) (args : list pystr) : M state unit :=
  emit (EvLog lvl fmt args).

Definition sleep (seconds : N) : M state unit := emit (EvSleep seconds).

(** [os.path.isfile] and, for the paths of regular files, [os.path.exists]. *)
Definition isfile (path : pystr) : M state bool :=
  λ s, (Ret (bool_decide (path ∈ files s)), s).

(** [os.unlink] of an existing file. *)
Definition unlink (path : pystr) : M state unit :=
  λ s, (Ret tt, State (files s ∖ {[path]}) (trace s ++ [EvUnlink path]) (temps s)).

(** An HTTP response of [requests]. *)
Record response := Response {
  status_code : N;
  reason : pystr;
  resp_url : pystr;               (* the URL the response came from *)
  resp_text : pystr;              (* the body as text *)
  content_type : option pystr;    (* the Content-Type header *)
  stream_error : option exn       (* raised while the body is read in chunks *)
}.

(** What a call of [requests.get]/[requests.post] does. *)
Inductive http_result :=
| HttpRaises (e : exn)
| HttpResponse (r : response).

(** What [fitz.open] finds. *)
Record document := Document {
  is_encrypted : bool;
  authenticate_empty : bool;       (* doc.authenticate with the empty password *)
  page_texts_of : list pystr;      (* page.get_text, page by page *)
  metadata_of : gmap pystr pystr   (* doc.metadata; absent is the empty dict *)
}.

Inductive open_result :=
| OpenRaises (e : exn)
| Opened (doc : document).

(** What [model.generate_content(prompt)] and then [response.text] do. *)
Inductive generate_result :=
| GenerateRaises (e : exn)
| Reply (text : pystr).

(** What [json.loads] makes of a text. *)
Inductive loads_result :=
| Decoded (v : json)
| DecodeError (msg : pystr).

(** The outside world. Calls that are repeated take the number of the
    attempt, from 1. *)
Record World := {
  w_abspath : pystr → pystr;                       (* os.path.abspath *)
  w_tempname : nat → pystr;                        (* stem of the n-th temp file *)
  w_get : pystr → nat → http_result;               (* requests.get(url) *)
  w_open : pystr → open_result;                    (* fitz.open(path) *)
  w_query : pystr → http_result;                   (* the catalog's query *)
  w_generate : pystr → nat → generate_result;      (* the language model *)
  w_create : json → http_result;                   (* the catalog's create *)
  w_json_loads : pystr → loads_result;             (* json.loads *)
  w_str : json → pystr;                            (* str(v) of a value that is no string *)
  w_today : pystr;                                 (* date.today().isoformat() *)
  w_database_id : pystr                            (* NOTION_DATABASE_ID of the environment *)
}.

(** [str(v)], as it appears in a message or as a log argument. *)
Definition text_of (w : World) (v : json) : pystr :=
  match v with
  | JStr s => s
  | _ => w_str w v
  end.

(** [str(last_error)] after a retry loop. *)
Definition str_opt_exn (e : option exn) : pystr :=
  match e with
  | Some e => exc_str e
  | None => Str.py "None"
  end.

(** [except Exception] *)
Definition catch_all (e : exn) : bool := true.

(** [resp.raise_for_status()], as [requests] words the error. *)
Definition raise_for_status {S} (r : response) : M S unit :=
  let msg (kind : String.string) :=
    Str.of_N (status_code r) ++ Str.py kind ++ reason r
      ++ Str.py " for url: " ++ resp_url r in
  if (400 <=? status_code r) && (status_code r <? 500)
  then raise (Exn HTTPError (msg " Client Error: "))
  else if (500 <=? status_code r) && (status_code r <? 600)
  then raise (Exn HTTPError (msg " Server Error: "))
  else ret tt.

(** [resp.json()] *)
Definition resp_json {S} (w : World) (r : response) : M S json :=
  match w_json_loads w (resp_text r) with
  | Decoded v => ret v
  | DecodeError msg => raise (Exn RequestsJSONDecodeError msg)
  end.

(** ** config.py *)

Module Config.
Definition DEFAULT_STATUS : pystr := Str.py "Inbox".
Definition GEMINI_MODEL : pystr := Str.py "gemini-2.5-flash".
Definition MAX_TEXT_LENGTH : N := 30000.
Definition REQUEST_RETRY_COUNT : nat := 3.
(** 2.0 seconds; the delays computed from it are whole seconds. *)
Definition REQUEST_RETRY_DELAY : N := 2.
End Config.

(** ** Access to Python objects *)

Module Obj.
Import Str.

Definition no_attribute {S A} (name : String.string) : M S A :=
  raise (Exn AttributeError (py "object has no attribute '" ++ py name ++ py "'")).

(** [d.get(k, default)] *)
Definition get {S} (d : json) (k : pystr) (dflt : json) : M S json :=
  match d with
  | JObj m => ret (default dflt (m !! k))
  | _ => no_attribute "get"
  end.

(** [d[k]] for a string [k] *)
Definition getitem {S} (d : json) (k : pystr) : M S json :=
  match d with
  | JObj m => match m !! k with
              | Some v => ret v
              | None => raise (Exn KeyError k)
              end
  | _ => raise (Exn TypeError (py "indices must be integers or the object is not subscriptable"))
  end.

(** [x[0]] *)
Definition getitem0 {S} (x : json) : M S json :=
  match x with
  | JList (v :: _) => ret v
  | JStr (c :: _) => ret (JStr [c])
  | JList [] | JStr [] => raise (Exn IndexError (py "index out of range"))
  | JObj _ => raise (Exn KeyError (py "0"))
  | _ => raise (Exn TypeError (py "object is not subscriptable"))
  end.

(** The items a [for] loop over [x] visits. The keys of a dict come in
    the order of the map, not in insertion order. *)
Definition iter {S} (x : json) : M S (list json) :=
  match x with
  | JList l => ret l
  | JStr s => ret ((λ c, JStr [c]) <$> s)
  | JObj m => ret ((λ kv, JStr kv.1) <$> map_to_list m)
  | _ => raise (Exn TypeError (py "object is not iterable"))
  end.

(** [d[k] = v] *)
Definition setitem {S} (d : json) (k : pystr) (v : json) : M S json :=
  match d with
  | JObj m => ret (JObj (<[k := v]> m))
  | _ => raise (Exn TypeError (py "object does not support item assignment"))
  end.

End Obj.

(** ** pdf_extractor.py *)

Module PdfExtractor.
Import Str Re Config.

(** All text and metadata pulled from a single PDF. *)
Record ExtractedPaper := {
  title : option pystr;
  authors : option pystr;
  abstract : option pystr;
  body_text : pystr;
  num_pages : nat;
  source_path : pystr;
  metadata : gmap pystr pystr
}.

(** Truth value of an [Optional[str]]. *)
Definition opt_truthy (o : option pystr) : bool :=
  match o with
  | Some s => Str.nonempty s
  | None => false
  end.

Definition part (label : pystr) (o : option pystr) : list pystr :=
  match o with
  | Some s => if Str.nonempty s then [label ++ s] else []
  | None => []
  end.

Definition full_text (p : ExtractedPaper) : pystr :=
  let parts :=
    part (py "Title: ") (title p)
    ++ part (py "Authors: ") (authors p)
    ++ part (py "Abstract:" ++ NL) (abstract p)
    ++ (if Str.nonempty (body_text p) then [body_text p] else []) in
  join (NL ++ NL) parts.

(** *** Download *)

(** The URL [download_pdf] fetches, with the log calls of the rewriting. *)
Definition rewrite_url (url : pystr) : M state pystr :=
  let* url :=
    if contains url (py "arxiv.org/abs/") then
      let url := replace url (py "/abs/") (py "/pdf/") in
      let url := if negb (endswith url (py ".pdf")) then url ++ py ".pdf" else url in
      do* log INFO (py "Converted arXiv URL " ++ ARROW ++ py " %s") [url] in
      ret url
    else ret url in
  if contains url (py "sciencedirect.com") && contains url (py "/abs/") then
    let url := replace url (py "/abs/") (py "/") in
    let url := if negb (endswith url (py "/pdfft"))
               then rstrip_chars (py "/") url ++ py "/pdfft" else url in
    do* log INFO (py "Converted ScienceDirect URL " ++ ARROW ++ py " %s") [url] in
    do* log WARNING (py "ScienceDirect PDFs often require subscription access") [] in
    ret url
  else ret url.

(** [tempfile.NamedTemporaryFile(delete=False, suffix=".pdf")]: the file
    exists from here on. *)
Definition NamedTemporaryFile (w : World) : M state pystr :=
  λ s, let name := w_tempname w (temps s) ++ py ".pdf" in
       (Ret name,
        State ({[name]} ∪ files s) (trace s ++ [EvTempFile name]) (S (temps s))).

(** [requests.get(url, ...)] *)
Definition requests_get (w : World) (url : pystr) (attempt : nat) : M state response :=
  do* emit (EvGet url) in
  match w_get w url attempt with
  | HttpRaises e => raise e
  | HttpResponse r => ret r
  end.

(** The [try] block of one attempt. *)
Definition fetch_once (w : World) (url : pystr) (attempt : nat) : M state pystr :=
  do* log INFO (py "Downloading %s (attempt %d)") [url; of_nat attempt] in
  let* resp := requests_get w url attempt in
  do* raise_for_status resp in
  let* tmp := NamedTemporaryFile w in
  do* match stream_error resp with
      | Some e => raise e
      | None => ret tt
      end in
  do* log INFO (py "Saved to %s") [tmp] in
  ret tmp.

(** The [for] loop over the attempts: [inl path] when an attempt returns,
    [inr last_error] when the loop runs out. *)
Fixpoint download_loop (w : World) (url : pystr) (attempts : list nat)
    (last_error : option exn) : M state (pystr + option exn) :=
  match attempts with
  | [] => ret (inr last_error)
  | attempt :: rest =>
      let* r :=
        try_except
          (let* path := fetch_once w url attempt in ret (inl path))
          is_RequestException
          (λ exc,
             do* log WARNING (py "Download attempt %d failed: %s")
                   [of_nat attempt; exc_str exc] in
             do* (if (attempt <? REQUEST_RETRY_COUNT)%nat
                  then sleep REQUEST_RETRY_DELAY else ret tt) in
             ret (inr (Some exc))) in
      match r with
      | inl path => ret (inl path)
      | inr err => download_loop w url rest err
      end
  end.

Definition advice_sciencedirect : pystr :=
  NL ++ NL ++ py "  ScienceDirect blocks automated downloads."
  ++ NL ++ py "  " ++ ARROW
  ++ py " Try using the DOI instead: python paper_processor.py --doi 10.xxxx/xxxxx"
  ++ NL ++ py "  " ++ ARROW
  ++ py " Or download the PDF manually and use: python paper_processor.py --pdf file.pdf".

Definition advice_403 : pystr :=
  NL ++ NL ++ py "  This URL appears to be blocked (403 Forbidden)."
  ++ NL ++ py "  " ++ ARROW ++ py " The paper may be paywalled or behind bot protection"
  ++ NL ++ py "  " ++ ARROW ++ py " Try using --doi if you have the paper's DOI"
  ++ NL ++ py "  " ++ ARROW ++ py " Or download manually and use --pdf".

Definition advice_404 : pystr :=
  NL ++ NL ++ py "  URL not found (404). Check that the URL is correct."
  ++ NL ++ py "  " ++ ARROW ++ py " Make sure it's a direct PDF link, not an abstract page".

(** The message of the error raised once the attempts are used up. *)
Definition download_error_msg (url : pystr) (last_error : option exn) : pystr :=
  let error_msg :=
    py "Download failed after " ++ of_nat REQUEST_RETRY_COUNT
    ++ py " attempts: " ++ str_opt_exn last_error in
  if contains (str_opt_exn last_error) (py "403")
     || contains (str_opt_exn last_error) (py "Forbidden")
  then
    if contains url (py "sciencedirect.com")
    then error_msg ++ advice_sciencedirect
    else error_msg ++ advice_403
  else if contains (str_opt_exn last_error) (py "404")
  then error_msg ++ advice_404
  else error_msg.

Definition download_pdf (w : World) (url : pystr) : M state pystr :=
  let* url := rewrite_url url in
  let* r := download_loop w url (seq 1 REQUEST_RETRY_COUNT) None in
  match r with
  | inl path => ret path
  | inr last_error => raise (Exn RuntimeError (download_error_msg url last_error))
  end.

(** *** DOI resolution *)













(** *** Extraction helpers *)

Definition ligatures : list (pystr * pystr) :=
  [ ([64257], py "fi"); ([64258], py "fl"); ([64256], py "ff");
    ([64259], py "ffi"); ([64260], py "ffl") ].

Definition _clean_text (text : pystr) : pystr :=
  let text := foldl (λ text sd, replace text sd.1 sd.2) text ligatures in
  let text := re_sub (Seq (Rep 3 (Lit NL)) (Star true (Lit NL))) (NL ++ NL) text in
  let text := join NL (rstrip <$> split text NL) in
  strip text.

Definition abstract_pattern : regex :=
  Seq (Alt Bol (Lit NL))
 (Seq (Star true space)
 (Seq (Alt (LitI (py "Abstract")) (Alt (LitI (py "ABSTRACT")) (LitI (py "Summary"))))
 (Seq (Star true space)
 (Seq (Opt (Lit (py ":")))
 (Seq (Star true space)
 (Seq (Opt (Lit NL))
 (Seq (Group (Star false any))
      (Look (Alt (Seq (Lit NL) (Seq (Star true space)
                    (Alt (LitI (py "Keywords"))
                    (Alt (LitI (py "KEYWORDS"))
                    (Alt (Seq (LitI (py "1.")) space)
                    (Alt (LitI (py "Introduction"))
                         (LitI (py "INTRODUCTION"))))))))
                 EndZ))))))))).

Definition _detect_abstract (text : pystr) : option pystr :=
  match re_search abstract_pattern text with
  | Some m =>
      let candidate := _clean_text (default [] (group1 text m)) in
      if (50 <? length candidate)%nat then Some candidate else None
  | None => None
  end.

Fixpoint first_meaningful_line (lines : list pystr) : option pystr :=
  match lines with
  | [] => None
  | line :: rest =>
      let stripped := strip line in
      if (5 <? length stripped)%nat then Some stripped
      else first_meaningful_line rest
  end.

Definition _detect_title (text : pystr) (pdf_meta_title : option pystr)
    : option pystr :=
  match pdf_meta_title with
  | Some t =>
      if Str.nonempty t && (3 <? length (strip t))%nat then Some (strip t)
      else first_meaningful_line (split text NL)
  | None => first_meaningful_line (split text NL)
  end.

(** *** Public API *)

Definition password_msg (pdf_path : pystr) : pystr :=
  py "PDF is password-protected: " ++ pdf_path ++ NL
  ++ py "  " ++ ARROW ++ py " Unlock it before processing.".

Definition scanned_msg (chars pages : nat) : pystr :=
  py "Only " ++ of_nat chars ++ py " characters extracted from " ++ of_nat pages
  ++ py " pages " ++ EMDASH ++ py " this PDF is likely scanned and needs OCR." ++ NL
  ++ py "  " ++ ARROW ++ py " Try uploading to Google Docs or an online OCR tool first.".

(** The text of the pages that have some, joined by blank lines. *)
Definition raw_text (doc : document) : pystr :=
  let page_texts := List.filter (λ t, Str.nonempty (strip t)) (page_texts_of doc) in
  join (NL ++ NL) page_texts.

(** The [ExtractedPaper] built at the end of [extract_text_from_pdf]. *)
Definition paper_of (pdf_path : pystr) (doc : document) : ExtractedPaper :=
  let meta := metadata_of doc in
  let cleaned := _clean_text (raw_text doc) in
  {| title := _detect_title cleaned (meta !! py "title");
     authors := meta !! py "author";
     abstract := _detect_abstract cleaned;
     body_text := cleaned;
     num_pages := length (page_texts_of doc);
     source_path := pdf_path;
     metadata := meta |}.

Definition extract_text_from_pdf (w : World) (pdf_path : pystr)
    : M state ExtractedPaper :=
  let pdf_path := w_abspath w pdf_path in
  let* there := isfile pdf_path in
  if negb there
  then raise (Exn FileNotFoundError (py "PDF not found: " ++ pdf_path))
  else
    do* log INFO (py "Opening %s") [pdf_path] in
    do* emit (EvOpenPdf pdf_path) in
    match w_open w pdf_path with
    | OpenRaises exc =>
        raise (Exn RuntimeError (py "Cannot open PDF: " ++ exc_str exc))
    | Opened doc =>
        if is_encrypted doc && negb (authenticate_empty doc)
        then raise (Exn RuntimeError (password_msg pdf_path))
        else
          let num_pages := length (page_texts_of doc) in
          let raw := raw_text doc in
          if (length (strip raw) <? 100)%nat && (0 <? num_pages)%nat
          then raise (Exn RuntimeError (scanned_msg (length (strip raw)) num_pages))
          else ret (paper_of pdf_path doc)
    end.

End PdfExtractor.

(** ** llm_analyzer.py *)

Module LlmAnalyzer.
Import Str Re Config.

(** [_PROMPT_TEMPLATE.format(paper_text=...)]: the lines of the template
    and then the paper text. *)
Definition _PROMPT_TEMPLATE (paper_text : pystr) : pystr :=
  join NL
  [ py "You are analyzing an academic paper. Extract the following information and return it as valid JSON only " ++ EMDASH ++ py " no markdown fences, no explanations.";
    [];
    py "{";
    py "  " ++ DQ ++ py "title" ++ DQ ++ py ": " ++ DQ ++ py "<full title>" ++ DQ ++ py ",";
    py "  " ++ DQ ++ py "authors" ++ DQ ++ py ": " ++ DQ ++ py "<comma-separated author names>" ++ DQ ++ py ",";
    py "  " ++ DQ ++ py "year" ++ DQ ++ py ": <4-digit integer or null>,";
    py "  " ++ DQ ++ py "keywords" ++ DQ ++ py ": [" ++ DQ ++ py "kw1" ++ DQ ++ py ", " ++ DQ ++ py "kw2" ++ DQ ++ py ", ...],";
    py "  " ++ DQ ++ py "main_topics" ++ DQ ++ py ": [" ++ DQ ++ py "topic1" ++ DQ ++ py ", " ++ DQ ++ py "topic2" ++ DQ ++ py ", ...],";
    py "  " ++ DQ ++ py "key_findings" ++ DQ ++ py ": " ++ DQ ++ py "<2-3 sentences summarising main findings>" ++ DQ ++ py ",";
    py "  " ++ DQ ++ py "methodology" ++ DQ ++ py ": " ++ DQ ++ py "<1-2 sentences describing the method>" ++ DQ ++ py ",";
    py "  " ++ DQ ++ py "relevance_score" ++ DQ ++ py ": " ++ DQ ++ py "High | Medium | Low" ++ DQ ++ py ",";
    py "  " ++ DQ ++ py "research_area" ++ DQ ++ py ": " ++ DQ ++ py "Primary Research | Related Field | Methodology | Background" ++ DQ ++ py ",";
    py "  " ++ DQ ++ py "language" ++ DQ ++ py ": " ++ DQ ++ py "<detected language>" ++ DQ;
    py "}";
    [];
    py "Rules:";
    py "- keywords : 5-10 concise terms that capture the core subjects";
    py "- main_topics : 3-5 broader thematic areas";
    py "- relevance_score : High = cutting-edge / directly relevant; Low = tangential";
    py "- research_area : how this paper fits into a research portfolio";
    py "- Use null for any field that cannot be determined";
    py "- year must be an integer, not a string";
    [];
    py "---";
    [];
    py "Paper text (may be truncated for long papers):";
    [];
    paper_text ].

(** *** Helpers *)

(** [int(x)] of a float: truncation toward zero. *)
Definition int_of_float (x : float) : Z :=
  match Prim2SF x with
  | S754_finite s m e =>
      let v := match e with
               | Z0 => Zpos m
               | Zpos p => Z.shiftl (Zpos m) (Zpos p)
               | Zneg p => Z.shiftr (Zpos m) (Zpos p)
               end in
      if s then Z.opp v else v
  | _ => 0%Z
  end.

(** [float(n)] of an integer below 2^53. *)
Definition float_of_N (n : N) : float :=
  PrimFloat.of_uint63 (Uint63.of_Z (Z.of_N n)).

(** [int(MAX_TEXT_LENGTH * 0.8)], with the double that the literal 0.8
    denotes. *)
Definition head : N :=
  Z.to_N (int_of_float (PrimFloat.mul (float_of_N MAX_TEXT_LENGTH) 0x1.999999999999ap-1%float)).

Definition tail : N := MAX_TEXT_LENGTH - head.

Definition truncation_marker : pystr :=
  NL ++ NL ++ py "[" ++ ELLIPSIS ++ py "text truncated" ++ ELLIPSIS ++ py "]" ++ NL ++ NL.

Definition _truncate (text : pystr) : M state pystr :=
  if N.of_nat (length text) <=? MAX_TEXT_LENGTH then ret text
  else
    do* log INFO (py "Truncating %d chars " ++ ARROW ++ py " %d (head %d + tail %d)")
          [of_nat (length text); of_N MAX_TEXT_LENGTH; of_N head; of_N tail] in
    ret (take (N.to_nat head) text ++ truncation_marker ++ last_n (N.to_nat tail) text).

Definition fence : pystr := py "```".

(** The two substitutions of [_parse_response] on the stripped reply. *)
Definition strip_fences (raw : pystr) : pystr :=
  let cleaned := strip raw in
  let cleaned :=
    re_sub (Seq Bol (Seq (Lit fence) (Seq (Opt (Lit (py "json")))
               (Seq (Star true space) (Opt (Lit NL))))))
           [] cleaned in
  re_sub (Seq (Opt (Lit NL)) (Seq (Lit fence) (Seq (Star true space) Eol)))
         [] cleaned.

Definition invalid_json_msg (exc : pystr) : pystr :=
  py "Gemini returned invalid JSON " ++ EMDASH ++ py " try re-running the command." ++ NL
  ++ py "  " ++ ARROW ++ py " " ++ exc.

Definition _parse_response {S} (w : World) (raw : pystr) : M S json :=
  match w_json_loads w (strip_fences raw) with
  | Decoded v => ret v
  | DecodeError exc => raise (Exn RuntimeError (invalid_json_msg exc))
  end.

(** [data.setdefault(k, v)] on a dict. *)
Definition setdefault (k : pystr) (v : json) (data : gmap pystr json)
    : gmap pystr json :=
  match data !! k with
  | Some _ => data
  | None => <[k := v]> data
  end.

(** [[item.strip() for item in s.split(",") if item.strip()]] *)
Definition split_items (s : pystr) : list pystr :=
  List.filter Str.nonempty (strip <$> split s (py ",")).

(** The body of the loop over ("keywords", "main_topics"). *)
Definition coerce_list (key : pystr) (data : gmap pystr json) : gmap pystr json :=
  match data !! key with
  | Some (JStr s) => <[key := JList (JStr <$> split_items s)]> data
  | _ => data
  end.

Definition defaults : list (pystr * json) :=
  [ (py "title", JNull);
    (py "authors", JNull);
    (py "year", JNull);
    (py "keywords", JList []);
    (py "main_topics", JList []);
    (py "key_findings", JStr []);
    (py "methodology", JStr []);
    (py "relevance_score", JStr (py "Medium"));
    (py "research_area", JStr (py "Background"));
    (py "language", JStr (py "English")) ].

(** [_normalise] on a dict: the ten [setdefault]s in order, then the
    two coercions. *)
Definition normalise_dict (data : gmap pystr json) : gmap pystr json :=
  let data := foldl (λ data kv, setdefault kv.1 kv.2 data) data defaults in
  foldl (λ data key, coerce_list key data) data [py "keywords"; py "main_topics"].

(** [_normalise]: what is not a dict has no [setdefault]. *)
Definition _normalise {S} (data : json) : M S json :=
  match data with
  | JObj m => ret (JObj (normalise_dict m))
  | _ => Obj.no_attribute "setdefault"
  end.

(** *** Public API *)

(** The [try] block of one attempt. *)
Definition generate_once (w : World) (prompt : pystr) (attempt : nat) : M state json :=
  do* log INFO (py "Gemini call attempt %d (model=%s)") [of_nat attempt; GEMINI_MODEL] in
  do* emit (EvGenerate prompt) in
  match w_generate w prompt attempt with
  | GenerateRaises e => raise e
  | Reply text =>
      if negb (Str.nonempty text)
      then raise (Exn RuntimeError (py "Gemini returned an empty response"))
      else
        let* parsed := _parse_response w text in
        let* result := _normalise parsed in
        let* t := Obj.get result (py "title") JNull in
        do* log INFO (py "Analysis OK " ++ EMDASH ++ py " title=%r") [text_of w t] in
        ret result
  end.

(** The [for] loop: [inl result] when an attempt returns, [inr
    last_error] when the loop runs out. A [RuntimeError] leaves at once;
    any other exception costs the attempt. *)
Fixpoint analyze_loop (w : World) (prompt : pystr) (attempts : list nat)
    (last_error : option exn) : M state (json + option exn) :=
  match attempts with
  | [] => ret (inr last_error)
  | attempt :: rest =>
      let* r :=
        try_except
          (let* result := generate_once w prompt attempt in ret (inl result))
          catch_all
          (λ exc,
             if is_RuntimeError exc then raise exc
             else
               do* log WARNING (py "Attempt %d failed: %s") [of_nat attempt; exc_str exc] in
               do* (if (attempt <? REQUEST_RETRY_COUNT)%nat
                    then
                      let delay := REQUEST_RETRY_DELAY * 2 ^ N.of_nat (attempt - 1) in
                      do* log INFO (py "Retrying in %.1f s" ++ ELLIPSIS) [of_N delay] in
                      sleep delay
                    else ret tt) in
               ret (inr (Some exc))) in
      match r with
      | inl result => ret (inl result)
      | inr err => analyze_loop w prompt rest err
      end
  end.

Definition exhausted_msg (last_error : option exn) : pystr :=
  py "Gemini API failed after " ++ of_nat REQUEST_RETRY_COUNT ++ py " attempts: "
  ++ str_opt_exn last_error.

Definition analyze_paper (w : World) (paper_text : pystr) : M state json :=
  let* text := _truncate paper_text in
  let prompt := _PROMPT_TEMPLATE text in
  let* r := analyze_loop w prompt (seq 1 REQUEST_RETRY_COUNT) None in
  match r with
  | inl result => ret result
  | inr last_error => raise (Exn RuntimeError (exhausted_msg last_error))
  end.

End LlmAnalyzer.

(** ** notion_client.py *)

Module NotionClient.
Import Str Re Config.

Definition obj (kvs : list (pystr * json)) : json :=
  JObj (list_to_map kvs).

Definition or_empty (value : json) : json :=      (* value or "" *)
  if truthy value then value else JStr [].

(** *** Property builders *)

Definition _prop_title (value : json) : json :=
  obj [(py "title", JList [obj [(py "text", obj [(py "content", or_empty value)])]])].

Definition _prop_rich_text (value : json) : json :=
  obj [(py "rich_text", JList [obj [(py "text", obj [(py "content", or_empty value)])]])].

Definition _prop_number (value : json) : json :=
  obj [(py "number", value)].

Definition _prop_select (value : json) : json :=
  obj [(py "select", if truthy value then obj [(py "name", value)] else JNull)].

Definition _prop_multi_select {S} (w : World) (values : json) : M S json :=
  let values := match values with
                | JStr _ => JList [values]
                | _ => values
                end in
  let* items := if truthy values then Obj.iter values else ret [] in
  ret (obj [(py "multi_select",
             JList ((λ v, obj [(py "name", JStr (text_of w v))]) <$> items))]).

Definition _prop_date (iso_date : json) : json :=
  obj [(py "date", if truthy iso_date then obj [(py "start", iso_date)] else JNull)].

Definition _prop_url (value : json) : json :=
  obj [(py "url", value)].

(** *** Duplicate check *)

Definition _normalize_title (title : pystr) : pystr :=
  let normalized := re_sub (Plus space) (py " ") title in
  lower (strip normalized).

(** [_normalize_title] on a value of the reply: [re.sub] wants a string. *)
Definition normalize_value {S} (v : json) : M S pystr :=
  match v with
  | JStr s => ret (_normalize_title s)
  | _ => raise (Exn TypeError (py "expected string or bytes-like object"))
  end.

(** The stored title of a candidate page. *)
Definition page_title_of {S} (page : json) : M S json :=
  let* properties := Obj.get page (py "properties") (JObj ∅) in
  let* title_prop := Obj.get properties (py "Title") (JObj ∅) in
  let* title_blocks := Obj.get title_prop (py "title") (JList []) in
  if truthy title_blocks then
    let* block := Obj.getitem0 title_blocks in
    let* text := Obj.getitem block (py "text") in
    Obj.getitem text (py "content")
  else ret (JStr []).

(** The loop over the candidates: [Some url] when a candidate's
    normalized title equals the normalized query title. *)
Fixpoint scan_pages (w : World) (normalized_title : pystr) (pages : list json)
    : M state (option json) :=
  match pages with
  | [] => ret None
  | page :: rest =>
      let* page_title := page_title_of page in
      let* normalized_page_title := normalize_value page_title in
      if Str.eqb normalized_page_title normalized_title then
        let* url := Obj.get page (py "url") JNull in
        do* log INFO (py "Duplicate found: %s (matched: %r)")
              [text_of w url; text_of w page_title] in
        ret (Some url)
      else scan_pages w normalized_title rest
  end.

(** The result is the value the code returns: [JNull] for [None]. *)
Definition check_duplicate (w : World) (title : pystr) : M state json :=
  if negb (Str.nonempty title) then ret JNull
  else
    do* log INFO (py "Checking duplicate for title: %r") [title] in
    let normalized_title := _normalize_title title in
    let* found :=
      try_except
        (do* emit (EvCatalogQuery (take 100 title)) in
         match w_query w (take 100 title) with
         | HttpRaises e => raise e
         | HttpResponse resp =>
             do* raise_for_status resp in
             let* body := resp_json w resp in
             let* results := Obj.get body (py "results") (JList []) in
             let* pages := Obj.iter results in
             scan_pages w normalized_title pages
         end)
        catch_all
        (λ exc,
           do* log WARNING (py "Duplicate check failed (continuing): %s") [exc_str exc] in
           ret None) in
    match found with
    | Some url => ret url
    | None => ret JNull
    end.

(** *** Page creation *)

Definition rejected_msg (status : N) (message : pystr) : pystr :=
  py "Notion API " ++ of_N status ++ py ": " ++ message ++ NL
  ++ py "  " ++ ARROW ++ py " Verify integration permissions and database ID.".

Definition create_paper_page (w : World) (paper_data : json) (source : pystr)
    (pdf_url : option pystr) : M state json :=
  let* t := Obj.get paper_data (py "title") JNull in
  let title := if truthy t then t else JStr (py "Untitled Paper") in
  let* authors := Obj.get paper_data (py "authors") JNull in
  let* year := Obj.get paper_data (py "year") JNull in
  let* keywords := Obj.get paper_data (py "keywords") (JList []) in
  let* keywords_prop := _prop_multi_select w keywords in
  let* main_topics := Obj.get paper_data (py "main_topics") (JList []) in
  let* main_topics_prop := _prop_multi_select w main_topics in
  let* key_findings := Obj.get paper_data (py "key_findings") JNull in
  let* methodology := Obj.get paper_data (py "methodology") JNull in
  let* relevance_score := Obj.get paper_data (py "relevance_score") JNull in
  let* research_area := Obj.get paper_data (py "research_area") JNull in
  let properties : gmap pystr json :=
    list_to_map
      [ (py "Title", _prop_title title);
        (py "Authors", _prop_rich_text authors);
        (py "Year", _prop_number year);
        (py "Keywords", keywords_prop);
        (py "Main Topics", main_topics_prop);
        (py "Key Findings", _prop_rich_text key_findings);
        (py "Methodology", _prop_rich_text methodology);
        (py "Relevance Score", _prop_select relevance_score);
        (py "Research Area", _prop_select research_area);
        (py "Status", _prop_select (JStr DEFAULT_STATUS));
        (py "Source", _prop_select (JStr source));
        (py "Date Added", _prop_date (JStr (w_today w))) ] in
  let properties :=
    match pdf_url with
    | Some u => if Str.nonempty u
                then <[py "PDF Link" := _prop_url (JStr u)]> properties
                else properties
    | None => properties
    end in
  let payload :=
    obj [ (py "parent", obj [(py "database_id", JStr (w_database_id w))]);
          (py "properties", JObj properties) ] in
  do* log INFO (py "Creating Notion page: %s") [text_of w title] in
  try_except
    (do* emit (EvCreatePage payload) in
     match w_create w payload with
     | HttpRaises e => raise e
     | HttpResponse resp =>
         if negb (status_code resp =? 200) then
           let* body := resp_json w resp in
           let* message := Obj.get body (py "message") (JStr (resp_text resp)) in
           raise (Exn RuntimeError (rejected_msg (status_code resp) (text_of w message)))
         else
           let* body := resp_json w resp in
           let* page_url := Obj.get body (py "url") (JStr []) in
           do* log INFO (py "Created page: %s") [text_of w page_url] in
           ret page_url
     end)
    is_RequestException
    (λ exc, raise (Exn RuntimeError (py "Notion API connection failed: " ++ exc_str exc))).

End NotionClient.

(** ** paper_processor.py *)

Module PaperProcessor.
Import Str Config.
Import PdfExtractor.

(** The local variables of [process_single_paper] that its [finally]
    reads. *)
Record locals := Locals {
  pdf_path : option pystr;
  downloaded : bool
}.

(** A step that leaves the local variables alone. *)
Definition lift {A} (m : M state A) : M (locals * state) A :=
  λ ls, match m ls.2 with
        | (r, s') => (r, (ls.1, s'))
        end.

Definition set_pdf_path (p : pystr) : M (locals * state) unit :=
  λ ls, (Ret tt, (Locals (Some p) (downloaded ls.1), ls.2)).

Definition set_downloaded (b : bool) : M (locals * state) unit :=
  λ ls, (Ret tt, (Locals (pdf_path ls.1) b, ls.2)).

Definition get_locals : M (locals * state) locals :=
  λ ls, (Ret ls.1, ls).

(** [', '.join(x)]: does the argument of the print evaluate? *)
Definition join_keywords {S} (x : json) : M S unit :=
  let* items := Obj.iter x in
  if forallb (λ v, match v with JStr _ => true | _ => false end) items
  then ret tt
  else raise (Exn TypeError (py "sequence item: expected str instance")).

(** From extraction to the end of the [try] block. *)
Definition extract_to_create (w : World) (input_path source : pystr) (is_url : bool)
    (pdf_path : pystr) : M (locals * state) bool :=
  let* paper := lift (extract_text_from_pdf w pdf_path) in
  (* duplicate guard *)
  let* skip :=
    if opt_truthy (title paper) then
      let* dup_url := lift (NotionClient.check_duplicate w (default [] (title paper))) in
      ret (truthy dup_url)
    else ret false in
  if skip then ret true
  else
    (* LLM analysis *)
    let* analysis := lift (LlmAnalyzer.analyze_paper w (full_text paper)) in
    (* fall back to PDF-level metadata *)
    let* t := Obj.get analysis (py "title") JNull in
    let* analysis :=
      if negb (truthy t) && opt_truthy (title paper)
      then Obj.setitem analysis (py "title") (JStr (default [] (title paper)))
      else ret analysis in
    let* a := Obj.get analysis (py "authors") JNull in
    let* analysis :=
      if negb (truthy a) && opt_truthy (authors paper)
      then Obj.setitem analysis (py "authors") (JStr (default [] (authors paper)))
      else ret analysis in
    let* keywords := Obj.get analysis (py "keywords") (JList []) in
    do* join_keywords keywords in
    (* push to Notion *)
    let pdf_link := if is_url then input_path else pdf_path in
    let* page_url := lift (NotionClient.create_paper_page w analysis source (Some pdf_link)) in
    ret true.

(** The [try] block. *)
Definition try_block (w : World) (input_path source : pystr) (is_url : bool)
    : M (locals * state) bool :=
  if is_url then
    let* p := lift (download_pdf w input_path) in
    do* set_pdf_path p in
    do* set_downloaded true in
    extract_to_create w input_path source is_url p
  else
    let p := w_abspath w input_path in
    do* set_pdf_path p in
    let* there := lift (isfile p) in
    if negb there then ret false
    else extract_to_create w input_path source is_url p.

(** [except (FileNotFoundError, RuntimeError) as exc] *)
Definition handled (exc : exn) : bool :=
  is_FileNotFoundError exc || is_RuntimeError exc.

Definition except_block (exc : exn) : M (locals * state) bool :=
  do* lift (log ERROR (py "Failed: %s") [exc_str exc]) in
  ret false.

(** The [finally] block. *)
Definition finally_block : M (locals * state) unit :=
  let* l := get_locals in
  match pdf_path l with
  | Some p =>
      if downloaded l && Str.nonempty p then
        let* there := lift (isfile p) in
        if there then lift (unlink p) else ret tt
      else ret tt
  | None => ret tt
  end.

Definition process_single_paper (w : World) (input_path source : pystr)
    (is_url : bool) : M state bool :=
  λ s, match try_finally
               (try_except (try_block w input_path source is_url) handled except_block)
               finally_block
               (Locals None false, s) with
       | (r, (_, s')) => (r, s')
       end.

End PaperProcessor.

(** * Concrete inputs

    Worlds and inputs at which the properties below are exercised. *)

Module Demo.
Import Str.

(** Nothing on disk, nothing done yet. *)
Definition st0 : state := State ∅ [] 0.

(** A reply that gives the keywords as one string and leaves out the
    rest. *)
Definition reply_keywords : gmap pystr json :=
  {[ py "keywords" := JStr (py "a, b, c") ]}.

(** A text one character over the budget. *)
Definition long_text : pystr := replicate (N.to_nat 30001) 97.

(** A world without network, PDF library or services: every call out
    fails with a connection error, and no text is JSON. *)
Definition refused : exn := Exn ConnectionError (py "Connection refused").

Definition w_offline : World := {|
  w_abspath := λ p, p;
  w_tempname := λ n, py "/tmp/tmp" ++ of_nat n;
  w_get := λ _ _, HttpRaises refused;
  w_open := λ _, OpenRaises (Exn OtherException (py "no such file"));
  w_query := λ _, HttpRaises refused;
  w_generate := λ _ _, GenerateRaises refused;
  w_create := λ _, HttpRaises refused;
  w_json_loads := λ _, DecodeError (py "Expecting value: line 1 column 1 (char 0)");
  w_str := λ _, py "None";
  w_today := py "2024-03-01";
  w_database_id := py "0123456789abcdef"
|}.

(** [w] with the PDF library finding [doc] at every path. *)
Definition with_document (w : World) (doc : document) : World := {|
  w_abspath := w_abspath w;
  w_tempname := w_tempname w;
  w_get := w_get w;
  w_open := λ _, Opened doc;
  w_query := w_query w;
  w_generate := w_generate w;
  w_create := w_create w;
  w_json_loads := w_json_loads w;
  w_str := w_str w;
  w_today := w_today w;
  w_database_id := w_database_id w
|}.

(** A local file. *)
Definition paper_pdf : pystr := py "/home/user/paper.pdf".
Definition st_local : state := State {[ paper_pdf ]} [] 0.

(** A document without pages, and one-page documents of [n] letters. *)
Definition doc_no_pages : document := Document false false [] ∅.

(** An encrypted document that the empty password does not open, and one
    that it opens. *)
Definition doc_locked : document := Document true false [replicate 200 97] ∅.
Definition doc_unlocked : document := Document true true [replicate 200 97] ∅.

(** [w] with the language model answering by [g], and with [json.loads]
    knowing the empty list and the empty object. *)
Definition loads_table (s : pystr) : loads_result :=
  if Str.eqb s (py "[]") then Decoded (JList [])
  else if Str.eqb s (py "{}") then Decoded (JObj ∅)
  else DecodeError (py "Expecting value: line 1 column 1 (char 0)").

Definition with_generate (w : World) (g : pystr → nat → generate_result) : World := {|
  w_abspath := w_abspath w;
  w_tempname := w_tempname w;
  w_get := w_get w;
  w_open := w_open w;
  w_query := w_query w;
  w_generate := g;
  w_create := w_create w;
  w_json_loads := loads_table;
  w_str := w_str w;
  w_today := w_today w;
  w_database_id := w_database_id w
|}.

(* DEMO-END *)
End Demo.

(** * Properties *)

Import Str Config.

(** ** Running the monad *)

Lemma bind_ret {S A B} (a : A) (f : A → M S B) (s : S) :
  bind (ret a) f s = f a s.
Proof. reflexivity. Qed.

Lemma bind_run {S A B} (m : M S A) (f : A → M S B) (s : S) :
  bind m f s = match m s with
               | (Ret a, s') => f a s'
               | (Raise e, s') => (Raise e, s')
               end.
Proof. reflexivity. Qed.

(** ** Truncation (llm_analyzer._truncate) *)

Section Truncation.
Import LlmAnalyzer.

Lemma head_value : head = 24000.
Proof. vm_compute. reflexivity. Qed.

Lemma tail_value : tail = 6000.
Proof. vm_compute. reflexivity. Qed.

(** The split is 80% / 20% of the budget. *)
Lemma head_tail_shares :
  10 * head = 8 * MAX_TEXT_LENGTH
  ∧ 10 * tail = 2 * MAX_TEXT_LENGTH
  ∧ head + tail = MAX_TEXT_LENGTH.
Proof. rewrite head_value, tail_value. unfold MAX_TEXT_LENGTH. lia. Qed.

Lemma truncate_short (x : pystr) (st : state) :
  N.of_nat (length x) <= MAX_TEXT_LENGTH → _truncate x st = (Ret x, st).
Proof.
  intros Hle. unfold _truncate.
  destruct (N.leb_spec (N.of_nat (length x)) MAX_TEXT_LENGTH) as [_|Hgt]; [done | lia].
Qed.

Lemma truncate_long (x : pystr) (st : state) :
  MAX_TEXT_LENGTH < N.of_nat (length x) →
  (_truncate x st).1
  = Ret (take (N.to_nat head) x ++ truncation_marker
         ++ drop (length x - N.to_nat tail) x).
Proof.
  intros Hgt. unfold _truncate.
  destruct (N.leb_spec (N.of_nat (length x)) MAX_TEXT_LENGTH) as [Hle|_]; [lia |].
  unfold last_n.
  destruct (N.to_nat tail) eqn:E; [rewrite tail_value in E; lia | reflexivity].
Qed.

(** C2. A text within the budget comes back unchanged; a longer one comes
    back as its first [head] characters, the marker, and its last [tail]
    characters, where [head] and [tail] are 80% and 20% of the budget, so
    that the result is as long as the budget plus the marker. *)
Theorem truncate_spec (x : pystr) (st : state) :
  (N.of_nat (length x) <= MAX_TEXT_LENGTH → (_truncate x st).1 = Ret x)
  ∧ (MAX_TEXT_LENGTH < N.of_nat (length x) →
     ∃ y, (_truncate x st).1 = Ret y
          ∧ y = take (N.to_nat head) x ++ truncation_marker
                ++ drop (length x - N.to_nat tail) x
          ∧ 10 * head = 8 * MAX_TEXT_LENGTH
          ∧ 10 * tail = 2 * MAX_TEXT_LENGTH
          ∧ N.of_nat (length (take (N.to_nat head) x)) = head
          ∧ N.of_nat (length (drop (length x - N.to_nat tail) x)) = tail
          ∧ N.of_nat (length y)
            = MAX_TEXT_LENGTH + N.of_nat (length truncation_marker)).
Proof.
  split.
  - intros Hle. by rewrite truncate_short.
  - intros Hgt. eexists. split; [by apply truncate_long |].
    split; [reflexivity |].
    destruct head_tail_shares as (Hh & Ht & Hsum).
    assert (Htake : N.of_nat (length (take (N.to_nat head) x)) = head)
      by (rewrite length_take; lia).
    assert (Hdrop : N.of_nat (length (drop (length x - N.to_nat tail) x)) = tail)
      by (rewrite length_drop; lia).
    repeat split; try done.
    rewrite !length_app. lia.
Qed.

End Truncation.

(** ** Normalisation of the reply (llm_analyzer._normalise) *)

Section Normalisation.
Import LlmAnalyzer.

Lemma setdefault_union (k : pystr) (v : json) (data : gmap pystr json) :
  setdefault k v data = data ∪ {[k := v]}.
Proof.
  unfold setdefault. apply map_eq. intros i.
  rewrite lookup_union.
  destruct (data !! k) eqn:Hk.
  - destruct (decide (k = i)) as [<-|Hne].
    + by rewrite Hk, lookup_singleton_eq.
    + rewrite lookup_singleton_ne by done. by destruct (data !! i).
  - destruct (decide (k = i)) as [<-|Hne].
    + by rewrite lookup_insert_eq, Hk, lookup_singleton_eq.
    + rewrite lookup_insert_ne, lookup_singleton_ne by done. by destruct (data !! i).
Qed.

(** The [setdefault]s add the defaults under what is there. *)
Lemma setdefaults_union (l : list (pystr * json)) (data : gmap pystr json) :
  foldl (λ data kv, setdefault kv.1 kv.2 data) data l = data ∪ list_to_map l.
Proof.
  revert data. induction l as [|[k v] l IH]; intros data; simpl.
  - by rewrite (right_id_L ∅ (∪)).
  - rewrite IH, setdefault_union, <- (assoc_L (∪)).
    by rewrite insert_union_singleton_l.
Qed.

Lemma coerce_list_lookup (key k : pystr) (data : gmap pystr json) :
  coerce_list key data !! k
  = if decide (key = k)
    then match data !! key with
         | Some (JStr s) => Some (JList (JStr <$> split_items s))
         | o => o
         end
    else data !! k.
Proof.
  unfold coerce_list. case_decide as Hk.
  - subst k. destruct (data !! key) as [[]|] eqn:E; rewrite ?lookup_insert_eq; done.
  - destruct (data !! key) as [[]|] eqn:E; rewrite ?lookup_insert_ne; done.
Qed.

(** What [_normalise] makes of a value that the reply, or the defaults,
    hold under [key]. *)
Definition coerced (key : pystr) (v : json) : json :=
  match v with
  | JStr s =>
      if bool_decide (key = py "keywords") || bool_decide (key = py "main_topics")
      then JList (JStr <$> split_items s) else v
  | _ => v
  end.

(** Every lookup in the normalised dict. *)
Lemma normalise_lookup (data : gmap pystr json) (k : pystr) :
  normalise_dict data !! k
  = coerced k <$> (data ∪ list_to_map defaults) !! k.
Proof.
  unfold normalise_dict. rewrite setdefaults_union.
  set (d := data ∪ list_to_map defaults). simpl.
  rewrite !coerce_list_lookup. unfold coerced.
  destruct (decide (py "main_topics" = k)) as [<-|Hm].
  - rewrite decide_False by (by vm_compute).
    rewrite bool_decide_eq_false_2 by (by vm_compute).
    rewrite bool_decide_eq_true_2 by done.
    by destruct (d !! py "main_topics") as [[]|].
  - rewrite (bool_decide_eq_false_2 (k = py "main_topics")) by done.
    destruct (decide (py "keywords" = k)) as [<-|Hk].
    + rewrite bool_decide_eq_true_2 by done.
      by destruct (d !! py "keywords") as [[]|].
    + rewrite bool_decide_eq_false_2 by done.
      by destruct (d !! k) as [[]|].
Qed.

Lemma default_lookup (k : pystr) (v : json) :
  (k, v) ∈ defaults → (list_to_map defaults : gmap pystr json) !! k = Some v.
Proof.
  intros Hin. apply elem_of_list_to_map_1; [| done].
  apply (bool_decide_unpack _). by vm_compute.
Qed.

Lemma default_not_string_list (k : pystr) (v : json) :
  (k, v) ∈ defaults → coerced k v = v.
Proof.
  unfold defaults. rewrite !elem_of_cons, elem_of_nil.
  intros H. repeat (destruct H as [H|H]; [by injection H as -> -> |]). done.
Qed.

End Normalisation.

Section NormalisationSpec.
Import LlmAnalyzer.

(** C3 (as amended). After normalisation of any dict every expected key is
    present; a missing key holds its default, which is [None] for title,
    authors and year, the empty list for keywords and main_topics, the
    empty string for key_findings and methodology, and Medium, Background,
    English for the last three; a key that was there keeps its value,
    except that keywords or main_topics given as a string become the list
    of the trimmed, non-empty pieces between commas, in order. *)
Theorem normalise_spec (data : gmap pystr json) (st : state) :
  let expected :=
    [ (py "title", JNull); (py "authors", JNull); (py "year", JNull);
      (py "keywords", JList []); (py "main_topics", JList []);
      (py "key_findings", JStr []); (py "methodology", JStr []);
      (py "relevance_score", JStr (py "Medium"));
      (py "research_area", JStr (py "Background"));
      (py "language", JStr (py "English")) ] in
  ∃ out,
    _normalise (JObj data) st = (Ret (JObj out), st)
    ∧ (∀ k v, (k, v) ∈ expected → is_Some (out !! k))
    ∧ (∀ k v, (k, v) ∈ expected → data !! k = None → out !! k = Some v)
    ∧ (∀ k s, k ∈ [py "keywords"; py "main_topics"] →
         data !! k = Some (JStr s) →
         out !! k = Some (JList (JStr <$> split_items s)))
    ∧ (∀ k v, data !! k = Some v → (∀ s, v ≠ JStr s) → out !! k = Some v)
    ∧ split_items (py "a, b, c") = [py "a"; py "b"; py "c"].
Proof.
  intros expected. exists (normalise_dict data).
  split; [reflexivity |].
  assert (Hexp : expected = defaults) by reflexivity. rewrite Hexp. clear Hexp expected.
  split; [| split; [| split; [| split]]].
  - intros k v Hin. rewrite normalise_lookup, lookup_union.
    rewrite (default_lookup k v Hin). destruct (data !! k); simpl; eauto.
  - intros k v Hin Hnone. rewrite normalise_lookup, lookup_union, Hnone.
    rewrite (default_lookup k v Hin). simpl. by rewrite default_not_string_list.
  - intros k s Hk Hs.
    rewrite normalise_lookup, (lookup_union_Some_l _ _ _ _ Hs).
    change (Some (coerced k (JStr s)) = Some (JList (JStr <$> split_items s))).
    f_equal. unfold coerced. rewrite !elem_of_cons, elem_of_nil in Hk.
    destruct Hk as [->|[->|[]]]; reflexivity.
  - intros k v Hv Hns.
    rewrite normalise_lookup, (lookup_union_Some_l _ _ _ _ Hv).
    change (Some (coerced k v) = Some v).
    f_equal. destruct v; try reflexivity. by destruct (Hns s).
  - vm_compute. reflexivity.
Qed.

Lemma normalise_spec_witness :
  ∃ out,
    _normalise (JObj Demo.reply_keywords) Demo.st0 = (Ret (JObj out), Demo.st0)
    ∧ out !! py "relevance_score" = Some (JStr (py "Medium"))
    ∧ out !! py "keywords" = Some (JList [JStr (py "a"); JStr (py "b"); JStr (py "c")]).
Proof.
  destruct (normalise_spec Demo.reply_keywords Demo.st0)
    as (out & Hrun & _ & Hdefault & Hcoerce & _ & Hitems).
  exists out. split; [exact Hrun |]. split.
  - apply Hdefault; [| by vm_compute].
    do 7 apply list_elem_of_further. apply list_elem_of_here.
  - rewrite (Hcoerce (py "keywords") (py "a, b, c"));
      [| apply list_elem_of_here | by vm_compute].
    by rewrite Hitems.
Defined.

(** C3, as stated, fails: a missing title, a string field, is filled with
    [None] and not with the empty string. *)
Lemma normalise_title_default_counterexample :
  ∃ (data out : gmap pystr json),
    data !! py "title" = None
    ∧ _normalise (JObj data) Demo.st0 = (Ret (JObj out), Demo.st0)
    ∧ out !! py "title" = Some JNull
    ∧ out !! py "title" ≠ Some (JStr []).
Proof.
  exists ∅, (normalise_dict ∅).
  assert (Hnone : normalise_dict ∅ !! py "title" = Some JNull).
  { rewrite normalise_lookup, lookup_union, lookup_empty.
    by rewrite (default_lookup (py "title") JNull) by set_solver. }
  split; [apply lookup_empty |]. split; [reflexivity |].
  split; [exact Hnone |]. rewrite Hnone. discriminate.
Qed.

End NormalisationSpec.

(** ** Truncation and normalisation at concrete inputs *)

Lemma truncate_spec_witness :
  (LlmAnalyzer._truncate (py "abc") Demo.st0).1 = Ret (py "abc")
  ∧ ∃ y, (LlmAnalyzer._truncate Demo.long_text Demo.st0).1 = Ret y
         ∧ N.of_nat (length y)
           = MAX_TEXT_LENGTH + N.of_nat (length LlmAnalyzer.truncation_marker).
Proof.
  split.
  - apply (truncate_spec (py "abc") Demo.st0). by vm_compute.
  - destruct (proj2 (truncate_spec Demo.long_text Demo.st0))
      as (y & Hy & _ & _ & _ & _ & _ & Hlen).
    + unfold Demo.long_text. rewrite length_replicate. unfold MAX_TEXT_LENGTH. lia.
    + exists y. split; [exact Hy | exact Hlen].
Defined.

(** ** DOI resolution (pdf_extractor.resolve_doi_to_pdf) *)

Section Doi.
Import PdfExtractor.







End Doi.

(** ** Extraction (pdf_extractor.extract_text_from_pdf) *)

Section Extraction.
Import PdfExtractor.

(** Extraction of a file that is there, opens, and is not locked. *)
Lemma extract_opened (w : World) (path : pystr) (st : state) (doc : document) :
  w_abspath w path ∈ files st →
  w_open w (w_abspath w path) = Opened doc →
  is_encrypted doc && negb (authenticate_empty doc) = false →
  (extract_text_from_pdf w path st).1
  = if (length (strip (raw_text doc)) <? 100)%nat
       && (0 <? length (page_texts_of doc))%nat
    then Raise (Exn RuntimeError
                  (scanned_msg (length (strip (raw_text doc)))
                               (length (page_texts_of doc))))
    else Ret (paper_of (w_abspath w path) doc).
Proof.
  intros Hfile Hopen Hlock.
  unfold extract_text_from_pdf, bind, isfile, log, emit, raise, ret.
  rewrite bool_decide_eq_true_2 by done. cbn [negb].
  rewrite Hopen, Hlock.
  by destruct ((length (strip (raw_text doc)) <? 100)%nat
               && (0 <? length (page_texts_of doc))%nat).
Qed.



(** C6, as stated, fails at a document without pages: it is built although
    its text, which is empty, is below the threshold. *)
Lemma zero_page_document_counterexample :
  ∃ paper,
    (extract_text_from_pdf (Demo.with_document Demo.w_offline Demo.doc_no_pages)
       Demo.paper_pdf Demo.st_local).1 = Ret paper
    ∧ is_encrypted Demo.doc_no_pages = false
    ∧ (length (strip (raw_text Demo.doc_no_pages)) < 100)%nat
    ∧ body_text paper = []
    ∧ num_pages paper = 0%nat.
Proof.
  exists (paper_of Demo.paper_pdf Demo.doc_no_pages).
  split.
  - rewrite (extract_opened _ _ _ Demo.doc_no_pages); try reflexivity; set_solver.
  - split; [reflexivity |]. split; [vm_compute; lia |]. split; reflexivity.
Qed.

End Extraction.

(** ** Extraction: the error paths *)

Section ExtractionErrors.
Import PdfExtractor.

(** A path that is no file is refused before the PDF library is asked:
    the error names the absolute path and nothing has happened. *)
Theorem extract_missing_file (w : World) (path : pystr) (st : state) :
  w_abspath w path ∉ files st →
  extract_text_from_pdf w path st
  = (Raise (Exn FileNotFoundError (py "PDF not found: " ++ w_abspath w path)), st).
Proof.
  intros Hmiss. unfold extract_text_from_pdf, bind, isfile, raise.
  by rewrite bool_decide_eq_false_2.
Qed.

Lemma extract_missing_file_witness :
  extract_text_from_pdf Demo.w_offline Demo.paper_pdf Demo.st0
  = (Raise (Exn FileNotFoundError (py "PDF not found: " ++ Demo.paper_pdf)), Demo.st0).
Proof.
  apply (extract_missing_file Demo.w_offline Demo.paper_pdf Demo.st0).
  set_solver.
Defined.

(** An encrypted document is refused only when the empty password does
    not open it; when it does, extraction goes on as for a document that
    is not encrypted. *)
Theorem extract_encrypted (w : World) (path : pystr) (st : state) (doc : document) :
  w_abspath w path ∈ files st →
  w_open w (w_abspath w path) = Opened doc →
  is_encrypted doc = true →
  (authenticate_empty doc = false →
   (extract_text_from_pdf w path st).1
   = Raise (Exn RuntimeError (password_msg (w_abspath w path))))
  ∧ (authenticate_empty doc = true →
     (extract_text_from_pdf w path st).1
     = if (length (strip (raw_text doc)) <? 100)%nat
          && (0 <? length (page_texts_of doc))%nat
       then Raise (Exn RuntimeError
                     (scanned_msg (length (strip (raw_text doc)))
                                  (length (page_texts_of doc))))
       else Ret (paper_of (w_abspath w path) doc)).
Proof.
  intros Hfile Hopen Henc. split; intros Hauth.
  - unfold extract_text_from_pdf, bind, isfile, log, emit, raise, ret.
    rewrite bool_decide_eq_true_2 by done. cbn [negb].
    by rewrite Hopen, Henc, Hauth.
  - apply extract_opened; [done | done |]. by rewrite Henc, Hauth.
Qed.

Lemma extract_encrypted_witness :
  (extract_text_from_pdf (Demo.with_document Demo.w_offline Demo.doc_locked)
     Demo.paper_pdf Demo.st_local).1
  = Raise (Exn RuntimeError (password_msg Demo.paper_pdf))
  ∧ (extract_text_from_pdf (Demo.with_document Demo.w_offline Demo.doc_unlocked)
       Demo.paper_pdf Demo.st_local).1
    = Ret (paper_of Demo.paper_pdf Demo.doc_unlocked).
Proof.
  split.
  - refine (proj1 (extract_encrypted
              (Demo.with_document Demo.w_offline Demo.doc_locked)
              Demo.paper_pdf Demo.st_local Demo.doc_locked _ _ _) _);
      try reflexivity; set_solver.
  - refine (eq_trans (proj2 (extract_encrypted
              (Demo.with_document Demo.w_offline Demo.doc_unlocked)
              Demo.paper_pdf Demo.st_local Demo.doc_unlocked _ _ _) _) _);
      try reflexivity; set_solver.
Defined.

End ExtractionErrors.

(** ** The duplicate guard (notion_client.check_duplicate) *)

Section DuplicateGuard.
Import NotionClient.

(** A [try] whose handler catches everything and returns does not raise. *)
Lemma try_except_all_ret {S A} (body : M S A) (handler : exn → M S A) (s : S) :
  (∀ e s1, ∃ a s2, handler e s1 = (Ret a, s2)) →
  ∃ a s', try_except body catch_all handler s = (Ret a, s').
Proof.
  intros Hh. unfold try_except.
  destruct (body s) as [[a|e] s1]; [eauto |].
  unfold catch_all. apply Hh.
Qed.

(** Whatever the catalog service does, whatever it sends back, the check
    returns a value: it never raises. *)
Theorem check_duplicate_never_raises (w : World) (title : pystr) (st : state) :
  ∃ v st', check_duplicate w title st = (Ret v, st').
Proof.
  unfold check_duplicate. destruct (Str.nonempty title); simpl; [| eauto].
  rewrite bind_run. unfold log at 1, emit at 1. rewrite bind_run.
  match goal with
  | |- context [try_except ?b catch_all ?h ?s] =>
      destruct (try_except_all_ret b h s) as (a & s' & ->)
  end.
  - intros e s1. unfold bind, log, emit, ret. eauto.
  - destruct a; eauto.
Qed.

(** The events of a check whose query failed with the error text [msg]. *)
Definition failed_check_events (title msg : pystr) : list event :=
  [ EvLog INFO (py "Checking duplicate for title: %r") [title];
    EvCatalogQuery (take 100 title);
    EvLog WARNING (py "Duplicate check failed (continuing): %s") [msg] ].

(** The check fails open: when the request raises, or the service answers
    with an HTTP error status, the result is [None], the catalog was asked
    once with the first 100 characters of the title, and the failure is
    logged as one warning. *)
Theorem check_duplicate_fails_open (w : World) (title : pystr) (st : state) :
  Str.nonempty title = true →
  (∀ e, w_query w (take 100 title) = HttpRaises e →
        check_duplicate w title st
        = (Ret JNull,
           State (files st) (trace st ++ failed_check_events title (exc_str e)) (temps st)))
  ∧ (∀ r, w_query w (take 100 title) = HttpResponse r →
          (400 <=? status_code r) && (status_code r <? 500) = true →
          check_duplicate w title st
          = (Ret JNull,
             State (files st)
               (trace st ++ failed_check_events title
                  (of_N (status_code r) ++ py " Client Error: " ++ reason r
                   ++ py " for url: " ++ resp_url r))
               (temps st))).
Proof.
  intros Hne. split.
  - intros e He. unfold check_duplicate. rewrite Hne. simpl negb. cbv iota.
    unfold bind, try_except, log, emit, ret, raise. simpl. rewrite He. simpl.
    unfold failed_check_events. by rewrite <- !app_assoc.
  - intros r Hr Hs. unfold check_duplicate. rewrite Hne. simpl negb. cbv iota.
    unfold bind, try_except, log, emit, ret, raise, raise_for_status. simpl.
    rewrite Hr. simpl. rewrite Hs. simpl.
    unfold failed_check_events. by rewrite <- !app_assoc.
Qed.

Lemma check_duplicate_fails_open_witness :
  check_duplicate Demo.w_offline (py "Deep Learning Survey") Demo.st0
  = (Ret JNull,
     State ∅ (failed_check_events (py "Deep Learning Survey") (py "Connection refused")) 0).
Proof.
  refine (proj1 (check_duplicate_fails_open Demo.w_offline
                   (py "Deep Learning Survey") Demo.st0 _) Demo.refused _);
    reflexivity.
Defined.

End DuplicateGuard.

(** ** Analysis (llm_analyzer.analyze_paper) *)

Section Analysis.
Import LlmAnalyzer.

(** Unfold the monad and the loop of [analyze_paper] one layer. *)
Ltac run_analysis :=
  unfold analyze_paper, generate_once, _parse_response, _normalise,
    Obj.no_attribute, bind, try_except, log, sleep, emit, ret, raise, catch_all;
  cbn [seq analyze_loop REQUEST_RETRY_COUNT];
  unfold generate_once, _parse_response, _normalise,
    Obj.no_attribute, bind, try_except, log, sleep, emit, ret, raise, catch_all.

Definition attempt_log (attempt : nat) : event :=
  EvLog INFO (py "Gemini call attempt %d (model=%s)") [of_nat attempt; GEMINI_MODEL].

(** An empty reply, or a reply that is not JSON once the fences are
    stripped, ends the analysis at once: one call of the model, no sleep,
    and a [RuntimeError] that says which of the two it was. *)
Theorem analyze_fails_fast (w : World) (paper_text text : pystr) (st st1 : state) :
  _truncate paper_text st = (Ret text, st1) →
  let prompt := _PROMPT_TEMPLATE text in
  let after := State (files st1) (trace st1 ++ [attempt_log 1; EvGenerate prompt])
                     (temps st1) in
  (w_generate w prompt 1 = Reply [] →
   analyze_paper w paper_text st
   = (Raise (Exn RuntimeError (py "Gemini returned an empty response")), after))
  ∧ (∀ reply msg,
       w_generate w prompt 1 = Reply reply →
       Str.nonempty reply = true →
       w_json_loads w (strip_fences reply) = DecodeError msg →
       analyze_paper w paper_text st
       = (Raise (Exn RuntimeError (invalid_json_msg msg)), after)).
Proof.
  intros Htrunc prompt after. subst after. split.
  - intros Hreply. run_analysis. rewrite Htrunc. fold prompt. rewrite Hreply.
    cbn. by rewrite <- app_assoc.
  - intros reply msg Hreply Hne Hjson. run_analysis. rewrite Htrunc. fold prompt.
    rewrite Hreply, Hne, Hjson. cbn. by rewrite <- app_assoc.
Qed.

Lemma analyze_fails_fast_witness :
  (analyze_paper (Demo.with_generate Demo.w_offline (λ _ _, Reply [])) (py "abc") Demo.st0).1
  = Raise (Exn RuntimeError (py "Gemini returned an empty response"))
  ∧ (analyze_paper (Demo.with_generate Demo.w_offline (λ _ _, Reply (py "not json")))
       (py "abc") Demo.st0).1
    = Raise (Exn RuntimeError
               (invalid_json_msg (py "Expecting value: line 1 column 1 (char 0)"))).
Proof.
  split.
  - rewrite (proj1 (analyze_fails_fast
              (Demo.with_generate Demo.w_offline (λ _ _, Reply []))
              (py "abc") (py "abc") Demo.st0 Demo.st0 eq_refl) eq_refl).
    reflexivity.
  - rewrite (proj2 (analyze_fails_fast
              (Demo.with_generate Demo.w_offline (λ _ _, Reply (py "not json")))
              (py "abc") (py "abc") Demo.st0 Demo.st0 eq_refl)
              (py "not json") (py "Expecting value: line 1 column 1 (char 0)")
              eq_refl eq_refl eq_refl).
    reflexivity.
Defined.

(** The events of one failed attempt that is followed by another: the
    warning, the announcement of the delay, the sleep. *)
Definition retry_events (attempt : nat) (delay : N) (e : exn) : list event :=
  [ EvLog WARNING (py "Attempt %d failed: %s") [of_nat attempt; exc_str e];
    EvLog INFO (py "Retrying in %.1f s" ++ ELLIPSIS) [of_N delay];
    EvSleep delay ].

(** When the model raises anything but a [RuntimeError] at each attempt,
    it is called three times, with a sleep of 2 seconds after the first
    failure and of 4 seconds after the second and none after the third,
    and the analysis fails with a [RuntimeError] that quotes the last
    error. *)
Theorem analyze_retries_with_backoff (w : World) (paper_text text : pystr)
    (st st1 : state) (e1 e2 e3 : exn) :
  _truncate paper_text st = (Ret text, st1) →
  let prompt := _PROMPT_TEMPLATE text in
  w_generate w prompt 1 = GenerateRaises e1 → is_RuntimeError e1 = false →
  w_generate w prompt 2 = GenerateRaises e2 → is_RuntimeError e2 = false →
  w_generate w prompt 3 = GenerateRaises e3 → is_RuntimeError e3 = false →
  analyze_paper w paper_text st
  = (Raise (Exn RuntimeError
              (py "Gemini API failed after 3 attempts: " ++ exc_str e3)),
     State (files st1)
       (trace st1
        ++ [attempt_log 1; EvGenerate prompt] ++ retry_events 1 2 e1
        ++ [attempt_log 2; EvGenerate prompt] ++ retry_events 2 4 e2
        ++ [attempt_log 3; EvGenerate prompt;
            EvLog WARNING (py "Attempt %d failed: %s") [of_nat 3; exc_str e3]])
       (temps st1)).
Proof.
  intros Htrunc prompt H1 R1 H2 R2 H3 R3.
  run_analysis. rewrite Htrunc. fold prompt. clearbody prompt.
  rewrite H1. cbn -[py of_nat of_N]. rewrite R1. cbn -[py of_nat of_N].
  rewrite H2. cbn -[py of_nat of_N]. rewrite R2. cbn -[py of_nat of_N].
  rewrite H3. cbn -[py of_nat of_N]. rewrite R3. cbn -[py of_nat of_N].
  f_equal. f_equal. by rewrite <- !app_assoc.
Qed.

Lemma analyze_retries_with_backoff_witness :
  (analyze_paper Demo.w_offline (py "abc") Demo.st0).1
  = Raise (Exn RuntimeError
             (py "Gemini API failed after 3 attempts: Connection refused")).
Proof.
  rewrite (analyze_retries_with_backoff Demo.w_offline (py "abc") (py "abc")
             Demo.st0 Demo.st0 Demo.refused Demo.refused Demo.refused
             eq_refl eq_refl eq_refl eq_refl eq_refl eq_refl eq_refl).
  reflexivity.
Defined.

End Analysis.
